(** * Automated-Prompt-Engineering notebook: the experiment harness

    A shallow embedding of the code cells of
    [Automated-Prompt-Engineering/AutomatedPromptEngineering.ipynb] that
    build, shuffle and split the data set, together with the properties of
    the train / validation / test partition.

    The notebook is straight-line Python.  Its own logic is
      - the seeding cell          [SEED = 1208; random.seed(SEED)],
      - the down-sampling cell    [dataset.sample(frac=0.1, random_state=SEED)],
      - the ingestion loop        building [dspy_dataset],
      - the shuffle cell          [random.shuffle(dspy_dataset)],
      - the split cell            computing [train_size], [val_size] and the
                                  three slices.
    Everything else is a call into a library ([random], [pandas], [dspy]).
    The calls into [random] and [pandas], on which the partition depends,
    are taken as interfaces (type classes) with their documented contract
    stated as laws.  The evaluation and optimisation cells only pass the
    subsets on to [dspy.Evaluate] and [dspy.MIPROv2]; the notebook has no
    logic of its own there and they are not modelled.

    The sizes [int(0.6 * len(x))] and [int(0.2 * len(x))] are IEEE-754
    binary64 computations; they are modelled exactly (round to nearest, ties
    to even, on integer significands) rather than replaced by rational
    arithmetic. *)

From Stdlib Require Import ZArith List Permutation String Ascii Bool Lia.
From Stdlib Require Import Floats Uint63.
Import ListNotations.

Local Open Scope Z_scope.

(* ================================================================== *)
(** * IEEE-754 binary64, positive finite values *)
(* ================================================================== *)

Module Binary64.

(** A non-negative finite double [mant * 2 ^ expo].  Exponent overflow
    and subnormals are out of the range reached by the notebook (products
    of a constant in (0,1) and a list length) and are not modelled. *)
Record float64 : Type := mkFloat { mant : Z; expo : Z }.

(** Rounding of an integer significand to at most 53 significant bits,
    round-to-nearest, ties-to-even: returns the rounded significand and
    the number of low bits that were dropped. *)
Definition rne53 (m : Z) : Z * Z :=
  let s := Z.log2 m - 52 in
  if s <=? 0 then (m, 0)
  else
    let q := m / 2 ^ s in
    let r := m mod 2 ^ s in
    let h := 2 ^ (s - 1) in
    if r <? h then (q, s)
    else if h <? r then (q + 1, s)
    else if Z.even q then (q, s) else (q + 1, s).

Definition normalize (m e : Z) : float64 :=
  let '(q, s) := rne53 m in mkFloat q (e + s).

(** Implicit [int -> float] conversion of a Python int operand. *)
Definition of_int (n : Z) : float64 := normalize n 0.

(** [a * b] on floats: exact product, then one rounding. *)
Definition fmul (a b : float64) : float64 :=
  normalize (mant a * mant b) (expo a + expo b).

(** [int(f)]: truncation (the values are non-negative, so it is floor). *)
Definition to_int (f : float64) : Z :=
  if 0 <=? expo f then mant f * 2 ^ expo f else mant f / 2 ^ (- expo f).

(** [round(f)] with one argument: nearest integer, ties to even. *)
Definition py_round (f : float64) : Z :=
  if 0 <=? expo f then mant f * 2 ^ expo f
  else
    let d := 2 ^ (- expo f) in
    let q := mant f / d in
    let r := mant f mod d in
    if 2 * r <? d then q
    else if d <? 2 * r then q + 1
    else if Z.even q then q else q + 1.

(** The literals of the notebook: the doubles nearest to 0.6, 0.2, 0.1,
    i.e. 0x1.3333333333333p-1, 0x1.999999999999ap-3, 0x1.999999999999ap-4. *)
Definition lit_0_6 : float64 := mkFloat 5404319552844595 (-53).
Definition lit_0_2 : float64 := mkFloat 7205759403792794 (-55).
Definition lit_0_1 : float64 := mkFloat 7205759403792794 (-56).

(** Reading of a machine double (the primitive floats of the kernel) into
    the model, used to test the model against the hardware operations. *)
Definition of_prim (f : PrimFloat.float) : option float64 :=
  match Prim2SF f with
  | S754_zero false => Some (mkFloat 0 0)
  | S754_finite false m e => Some (mkFloat (Zpos m) e)
  | _ => None
  end.

(** Equality of the numbers denoted, whatever the split between
    significand and exponent. *)
Definition same_value (a b : float64) : bool :=
  let e := Z.min (expo a) (expo b) in
  mant a * 2 ^ (expo a - e) =? mant b * 2 ^ (expo b - e).

(** The model of [c * n] against the machine product, on one length. *)
Definition agrees_on (c : float64) (pc : PrimFloat.float) (n : Z) : bool :=
  match of_prim (PrimFloat.mul pc (PrimFloat.of_uint63 (Uint63.of_Z n))) with
  | Some p => same_value (fmul c (of_int n)) p
  | None => false
  end.

End Binary64.

(* ================================================================== *)
(** * Python sequences *)
(* ================================================================== *)

Module Py.

(** Index adjustment of a slice bound (step 1): negative bounds count
    from the end, and every bound is clamped to [0, len]. *)
Definition clamp_index (len i : Z) : Z :=
  if i <? 0 then Z.max 0 (i + len) else Z.min i len.

Definition slice_bounds (len : Z) (start stop : option Z) : Z * Z :=
  let a := match start with None => 0 | Some i => clamp_index len i end in
  let b := match stop with None => len | Some j => clamp_index len j end in
  (a, b).

(** [l[start:stop]] on a list; [None] is an omitted bound. *)
Definition slice {A : Type} (l : list A) (start stop : option Z) : list A :=
  let '(a, b) := slice_bounds (Z.of_nat (List.length l)) start stop in
  firstn (Z.to_nat (b - a)) (skipn (Z.to_nat a) l).

(** [s[start:stop]] on a str. *)
Definition str_slice (s : string) (start stop : option Z) : string :=
  let '(a, b) := slice_bounds (Z.of_nat (String.length s)) start stop in
  substring (Z.to_nat a) (Z.to_nat (b - a)) s.

(** [zip(xs, ys)] *)
Definition zip {A B : Type} (xs : list A) (ys : list B) : list (A * B) :=
  combine xs ys.

End Py.

(** The integer nearest to [n / 10], a tie going to the even neighbour:
    what [round(n / 10)] is in exact arithmetic. *)
Definition nearest_tenth (n : Z) : Z :=
  let q := n / 10 in
  let r := n mod 10 in
  if r <? 5 then q
  else if 5 <? r then q + 1
  else if Z.even q then q else q + 1.

(* ================================================================== *)
(** * Data model *)
(* ================================================================== *)

(** One record of the loaded data set: the columns [question], [answer]
    and [choices] of the data frame, [choices] being the pair of parallel
    lists [{"label": [...], "text": [...]}]. *)
Record Choices : Type := mkChoices { label : list string; text : list string }.

Record Row : Type :=
  mkRow { question : string; row_answer : string; choices : Choices }.

(** A [dspy.Example(riddle=..., answer=...).with_inputs("riddle")].  Python
    lists hold references: [oid] is the identity of the object, so that two
    examples with equal fields are still two elements of the data set. *)
Record Example : Type :=
  mkExample { oid : nat; riddle : string; answer : string; inputs : list string }.

(** The fields of an example, without its identity. *)
Definition fields (e : Example) : string * string * list string :=
  (riddle e, answer e, inputs e).

Record Subsets : Type :=
  mkSubsets { train : list Example; val : list Example; test : list Example }.

Definition SEED : Z := 1208.

(* ================================================================== *)
(** * Library interfaces *)
(* ================================================================== *)

(** Python's [random] module: a hidden generator state, [random.seed(a)],
    and [random.shuffle(x)], which draws from the generator a rearrangement
    of the positions [0 .. len(x)-1] and moves the elements accordingly,
    without looking at them. *)
Class PyRandom : Type := {
  mt_state : Type;
  mt_seed : Z -> mt_state;
  mt_positions : mt_state -> nat -> list nat * mt_state
}.

Class PyRandomLaws (R : PyRandom) : Prop := {
  mt_positions_perm :
    forall (g : mt_state) (n : nat), Permutation (seq 0 n) (fst (mt_positions g n))
}.

(** [DataFrame.sample(frac=, random_state=)] of pandas, without
    replacement: a function of the fraction, the integer [random_state] and
    the frame (an integer [random_state] seeds a generator of its own, the
    global ones are not read).  It returns [round(frac * len(frame))] rows
    of the frame, each row at most once. *)
Class PandasSample : Type := {
  df_sample : Binary64.float64 -> Z -> list Row -> list Row
}.

Class PandasSampleLaws (P : PandasSample) : Prop := {
  df_sample_size :
    forall frac random_state rows,
      let n := Z.of_nat (List.length rows) in
      let k := Binary64.py_round (Binary64.fmul frac (Binary64.of_int n)) in
      0 <= k <= n ->
      Z.of_nat (List.length (df_sample frac random_state rows)) = k;
  df_sample_rows :
    forall frac random_state rows,
      exists rest, Permutation (df_sample frac random_state rows ++ rest) rows
}.

(* ================================================================== *)
(** * The interpreter state and its monad *)
(* ================================================================== *)

Section Interpreter.

Context {R : PyRandom}.

(** What the cells share: the allocator of object identities and the
    state of the global generator of [random]. *)
Record interp : Type := mkInterp { next_oid : nat; py_random : mt_state }.

Definition PyM (A : Type) : Type := interp -> A * interp.

Definition ret {A : Type} (a : A) : PyM A := fun st => (a, st).

Definition bind {A B : Type} (m : PyM A) (k : A -> PyM B) : PyM B :=
  fun st => let '(a, st') := m st in k a st'.

Definition run {A : Type} (m : PyM A) (st : interp) : A := fst (m st).

(** Allocation of a fresh object. *)
Definition alloc : PyM nat :=
  fun st => (next_oid st, mkInterp (S (next_oid st)) (py_random st)).

(** [random.seed(a)] *)
Definition random_seed (a : Z) : PyM unit :=
  fun st => (tt, mkInterp (next_oid st) (mt_seed a)).

(** The element of [l] at position [i], as a list of at most one element. *)
Definition pick {A : Type} (l : list A) (i : nat) : list A :=
  match nth_error l i with Some x => [x] | None => [] end.

Definition rearrange {A : Type} (l : list A) (positions : list nat) : list A :=
  flat_map (pick l) positions.

(** [random.shuffle(x)]: the list after the in-place shuffle. *)
Definition random_shuffle {A : Type} (x : list A) : PyM (list A) :=
  fun st =>
    let '(p, g) := mt_positions (py_random st) (List.length x) in
    (rearrange x p, mkInterp (next_oid st) g).

End Interpreter.

Declare Scope py_scope.
Delimit Scope py_scope with py.
Notation "x <- m ;; k" := (bind m (fun x => k))
  (at level 61, m at next level, right associativity) : py_scope.
Notation "m ;;; k" := (bind m (fun _ => k))
  (at level 61, right associativity) : py_scope.

(* ================================================================== *)
(** * The cells of the notebook *)
(* ================================================================== *)

Section Cells.

Context {R : PyRandom} {P : PandasSample}.

Local Open Scope py_scope.

(** [dataset = dataset.sample(frac=0.1, random_state=SEED)] *)
Definition downsample (dataset : list Row) : list Row :=
  df_sample Binary64.lit_0_1 SEED dataset.

(** The inner loop
    [for label, choice in zip(labels, context):
         answer_choices += f"{label}. {choice}, "] *)
Definition answer_choices_loop (labels context : list string) : string :=
  fold_left
    (fun answer_choices lc =>
       String.append answer_choices
         (String.append (fst lc)
            (String.append ". " (String.append (snd lc) ", "))))
    (Py.zip labels context) EmptyString.

(** The riddle text of a row:
    [answer_choices = answer_choices[:-2]]
    [riddle = f"{question}: {answer_choices}"] *)
Definition riddle_of_row (row : Row) : string :=
  let labels := label (choices row) in
  let context := text (choices row) in
  let answer_choices := answer_choices_loop labels context in
  let answer_choices := Py.str_slice answer_choices None (Some (-2)) in
  String.append (question row) (String.append ": " answer_choices).

(** One iteration of the ingestion loop: build the example (a new
    object) and append it to [dspy_dataset]. *)
Definition ingest_row (dspy_dataset : list Example) (row : Row)
  : PyM (list Example) :=
  o <- alloc ;;
  let example := mkExample o (riddle_of_row row) (row_answer row) ["riddle"%string] in
  ret (dspy_dataset ++ [example]).

(** [for row in dataset.itertuples(): ...] *)
Fixpoint ingest_from (dspy_dataset : list Example) (dataset : list Row)
  : PyM (list Example) :=
  match dataset with
  | [] => ret dspy_dataset
  | row :: rest => d <- ingest_row dspy_dataset row ;; ingest_from d rest
  end.

(** [dspy_dataset = []] followed by the loop. *)
Definition ingest (dataset : list Row) : PyM (list Example) :=
  ingest_from [] dataset.

(** [train_size = int(0.6 * len(dspy_dataset))] *)
Definition train_size (len : Z) : Z :=
  Binary64.to_int (Binary64.fmul Binary64.lit_0_6 (Binary64.of_int len)).

(** [val_size = int(0.2 * len(dspy_dataset))] *)
Definition val_size (len : Z) : Z :=
  Binary64.to_int (Binary64.fmul Binary64.lit_0_2 (Binary64.of_int len)).

(** The split cell:
    [train = dspy_dataset[:train_size]]
    [val = dspy_dataset[train_size : train_size + val_size]]
    [test = dspy_dataset[train_size + val_size :]] *)
Definition split (dspy_dataset : list Example) : Subsets :=
  let len := Z.of_nat (List.length dspy_dataset) in
  let train_size := train_size len in
  let val_size := val_size len in
  mkSubsets
    (Py.slice dspy_dataset None (Some train_size))
    (Py.slice dspy_dataset (Some train_size) (Some (train_size + val_size)))
    (Py.slice dspy_dataset (Some (train_size + val_size)) None).

(** The Partitioner: seed the generator, shuffle, split.  [shuffled] is
    returned as well, it is the contents of [dspy_dataset] after the
    in-place shuffle. *)
Definition partitioner (seed : Z) (dspy_dataset : list Example)
  : PyM (list Example * Subsets) :=
  random_seed seed ;;;
  shuffled <- random_shuffle dspy_dataset ;;
  ret (shuffled, split shuffled).

(** The cells in the order of the notebook, from the loaded data set to
    the three subsets.  Between the seeding cell and the shuffle cell no
    cell draws from [random]. *)
Definition notebook (loaded : list Row) : PyM (list Example * Subsets) :=
  random_seed SEED ;;;
  let dataset := downsample loaded in
  dspy_dataset <- ingest dataset ;;
  shuffled <- random_shuffle dspy_dataset ;;
  ret (shuffled, split shuffled).

End Cells.

(** ** Closed forms used to state results *)

(** The example built from [row] when the allocator hands out [o]. *)
Definition example_of_row (o : nat) (row : Row) : Example :=
  mkExample o (riddle_of_row row) (row_answer row) ["riddle"%string].

(** The examples built from [dataset] when the allocator starts at [o]. *)
Fixpoint examples_from (o : nat) (dataset : list Row) : list Example :=
  match dataset with
  | [] => []
  | row :: rest => example_of_row o row :: examples_from (S o) rest
  end.

(** The fields of the example built from a row, whatever its identity. *)
Definition fields_of_row (row : Row) : string * string * list string :=
  fields (example_of_row 0 row).


(* ================================================================== *)
(** * Reference instances of the library interfaces *)
(* ================================================================== *)

(** A small linear congruential generator standing in for the Mersenne
    Twister, and a draw-without-replacement shuffle of the positions.  They
    show that the laws above are satisfiable and let the theorems be run on
    concrete data. *)
Module Reference.

Definition lcg_next (g : Z) : Z := (1103515245 * g + 12345) mod 2 ^ 31.

(** Removes the element at position [i] and returns it with the rest. *)
Fixpoint extract {A : Type} (i : nat) (l : list A) : option (A * list A) :=
  match l with
  | [] => None
  | x :: t =>
      match i with
      | O => Some (x, t)
      | S j =>
          match extract j t with
          | Some (y, r) => Some (y, x :: r)
          | None => None
          end
      end
  end.

Fixpoint draw (fuel : nat) (g : Z) (pool : list nat) : list nat * Z :=
  match fuel with
  | O => (pool, g)
  | S fuel' =>
      let g' := lcg_next g in
      match extract (Z.to_nat (g' mod Z.of_nat (List.length pool))) pool with
      | Some (x, rest) => let '(t, g'') := draw fuel' g' rest in (x :: t, g'')
      | None => (pool, g)
      end
  end.

Definition lcg_random : PyRandom :=
  {| mt_state := Z;
     mt_seed := fun a => a mod 2 ^ 31;
     mt_positions := fun g n => draw n g (seq 0 n) |}.

(** Keeps the leading rows: the simplest sampler with the right count. *)
Definition head_sample : PandasSample :=
  {| df_sample := fun frac _ rows =>
       let n := Z.of_nat (List.length rows) in
       firstn (Z.to_nat (Binary64.py_round (Binary64.fmul frac (Binary64.of_int n)))) rows |}.

(** A loaded data set of [n] rows; rows [i] and [i + 7] have equal text. *)
Definition toy_row (i : nat) : Row :=
  mkRow (if Nat.even (i mod 7) then "What has keys but no locks" else "What runs but never walks")%string
        (if Nat.even i then "A" else "C")%string
        (mkChoices ["A"; "B"; "C"; "D"; "E"]%string
                   ["piano"; "map"; "river"; "clock"; "shadow"]%string).

Definition toy_rows (n : nat) : list Row := map toy_row (seq 0 n).

Definition toy_examples (n : nat) : list Example :=
  map (fun i => mkExample i "riddle" "A" ["riddle"%string]) (seq 0 n).

Definition fresh : @interp lcg_random := @mkInterp lcg_random 0 0.

End Reference.

(* ================================================================== *)
(** * The loading cells *)
(* ================================================================== *)

(** A record of the Hugging Face data set, with the columns the notebook
    reads: [row["question"]], [row["answerKey"]], [row["choices"]]. *)
Record HFRow : Type :=
  mkHFRow { hf_question : string; hf_answerKey : string; hf_choices : Choices }.

(** [pd.DataFrame({"question": .., "answer": .., "choices": ..})] on three
    lists: the rows of the frame, or [None] for the [ValueError] raised when
    the columns differ in length. *)
Definition DataFrame (questions answers : list string) (choices : list Choices)
  : option (list Row) :=
  if (List.length questions =? List.length answers)%nat
     && (List.length answers =? List.length choices)%nat
  then Some (map (fun qac => mkRow (fst (fst qac)) (snd (fst qac)) (snd qac))
               (combine (combine questions answers) choices))
  else None.

(** The three comprehensions and the construction of the frame. *)
Definition load_frame (dataset : list HFRow) : option (list Row) :=
  let questions := map hf_question dataset in
  let answers := map hf_answerKey dataset in
  let choices := map hf_choices dataset in
  DataFrame questions answers choices.

(** ** Closed forms for the riddle text *)

(** One answer choice as it is written into the riddle: [f"{label}. {choice}"]. *)
Definition choice_item (lc : string * string) : string :=
  String.append (fst lc) (String.append ". " (snd lc)).

(* ================================================================== *)
(** * Rounding lemmas *)
(* ================================================================== *)

Section Rounding.

Import Binary64.

Lemma rne53_small (m : Z) : 0 <= m < 2 ^ 53 -> rne53 m = (m, 0).
Proof.
  intros [H0 H1]. unfold rne53.
  assert (Hs : Z.log2 m - 52 <= 0).
  { destruct (Z.eq_dec m 0) as [->|Hm]; [cbn; lia|].
    assert (Z.log2 m < 53) by (apply Z.log2_lt_pow2; lia). lia. }
  apply Z.leb_le in Hs. cbv zeta. rewrite Hs. reflexivity.
Qed.

(** What rounding does to a significand of more than 53 bits: with [s]
    dropped bits, the result is the floor or the ceiling of [m / 2^s],
    whichever is nearer. *)
Lemma rne53_big (m : Z) :
  2 ^ 53 <= m ->
  exists s q', rne53 m = (q', s) /\ 0 < s /\
    2 ^ 52 * 2 ^ s <= m < 2 ^ 53 * 2 ^ s /\
    2 ^ s = 2 * 2 ^ (s - 1) /\ 0 < 2 ^ (s - 1) /\
    ((q' = m / 2 ^ s /\ m mod 2 ^ s <= 2 ^ (s - 1)) \/
     (q' = m / 2 ^ s + 1 /\ 2 ^ (s - 1) <= m mod 2 ^ s)).
Proof.
  intros Hm.
  assert (Hpos : 0 < m) by (assert (0 < 2 ^ 53) by reflexivity; lia).
  pose proof (Z.log2_spec m Hpos) as [Hlo Hhi].
  assert (Hl : 53 <= Z.log2 m) by (apply Z.log2_le_pow2; lia).
  set (s := Z.log2 m - 52) in *.
  assert (Hs : 0 < s) by (unfold s; lia).
  exists s.
  assert (E1 : 2 ^ Z.log2 m = 2 ^ 52 * 2 ^ s).
  { rewrite <- Z.pow_add_r by lia. f_equal. unfold s. lia. }
  assert (E2 : 2 ^ Z.succ (Z.log2 m) = 2 ^ 53 * 2 ^ s).
  { rewrite <- Z.pow_add_r by lia. f_equal. unfold s. lia. }
  assert (E3 : 2 ^ s = 2 * 2 ^ (s - 1)).
  { replace s with (1 + (s - 1)) at 1 by lia. rewrite Z.pow_add_r by lia. reflexivity. }
  assert (E4 : 0 < 2 ^ (s - 1)) by (apply Z.pow_pos_nonneg; lia).
  unfold rne53. fold s. cbv zeta.
  destruct (Z.leb_spec s 0) as [Hle|_]; [lia|].
  destruct (Z.ltb_spec (m mod 2 ^ s) (2 ^ (s - 1))) as [Hr|Hr].
  { eexists; repeat split; try eassumption; try lia. }
  destruct (Z.ltb_spec (2 ^ (s - 1)) (m mod 2 ^ s)) as [Hr'|Hr'].
  { eexists; repeat split; try eassumption; try lia. }
  destruct (Z.even (m / 2 ^ s)).
  - eexists; repeat split; try eassumption; try lia.
  - eexists; repeat split; try eassumption; try lia.
Qed.

End Rounding.

(* ================================================================== *)
(** * Exactness of the three products *)
(* ================================================================== *)

Module Exactness.

(** Floor division, characterised by its two bounds. *)
Lemma div_between (a b k : Z) : 0 < b -> k * b <= a < (k + 1) * b -> a / b = k.
Proof.
  intros Hb H. symmetry. apply Z.div_unique with (r := a - b * k); lia.
Qed.

Lemma divmod_eq (a b q r : Z) : 0 <= r < b -> a = b * q + r -> a / b = q /\ a mod b = r.
Proof.
  intros Hr E. split.
  - symmetry. apply Z.div_unique with (r := r); [left; lia | exact E].
  - symmetry. apply Z.mod_unique with (q := q); [left; lia | exact E].
Qed.

(** The significand [q'] obtained for [0.6 * n] and the scale [U] of its
    exponent: truncation gives exactly [3 * n / 5]. *)
Lemma trunc_0_6 (n m T h U q' : Z) :
  2 <= n < 2 ^ 50 ->
  m = 5404319552844595 * n ->
  T = 2 * h -> 0 < h -> T * U = 2 ^ 53 ->
  2 ^ 52 * T <= m < 2 ^ 53 * T ->
  ((q' = m / T /\ m mod T <= h) \/ (q' = m / T + 1 /\ h <= m mod T)) ->
  q' / U = 3 * n / 5.
Proof.
  intros Hn Em ET Hh ETU Hm Hq.
  change (2 ^ 50) with 1125899906842624 in *.
  change (2 ^ 52) with 4503599627370496 in *.
  change (2 ^ 53) with 9007199254740992 in *.
  assert (HT : 0 < T) by lia.
  assert (HU : 0 < U) by nia.
  pose proof (Z.div_mod m T ltac:(lia)) as Edm.
  pose proof (Z.mod_pos_bound m T HT) as Hr.
  pose proof (Z.div_mod (3 * n) 5 ltac:(lia)) as Ek.
  pose proof (Z.mod_pos_bound (3 * n) 5 ltac:(lia)) as Hrho.
  set (q := m / T) in *. set (r := m mod T) in *.
  set (k := 3 * n / 5) in *. set (rho := (3 * n) mod 5) in *.
  assert (HTb : T < 1351079888211149) by nia.
  assert (E5 : 5 * m = (5 * k + rho) * 9007199254740992 - n) by lia.
  assert (EkTU : k * U * T = k * 9007199254740992) by nia.
  destruct (Z.eq_dec rho 0) as [Hz|Hnz].
  - (* 3n is a multiple of 5: the product is just below the integer k *)
    assert (Ekj : exists j, k = 3 * j /\ n = 5 * j).
    { exists (n / 5).
      pose proof (Z.div_mod n 5 ltac:(lia)).
      pose proof (Z.mod_pos_bound n 5 ltac:(lia)).
      assert (n mod 5 = 0 \/ n mod 5 = 1 \/ n mod 5 = 2 \/ n mod 5 = 3 \/ n mod 5 = 4) as Hc by lia.
      destruct Hc as [Hc|[Hc|[Hc|[Hc|Hc]]]]; lia. }
    destruct Ekj as [j [Ej En]].
    assert (Emj : m = k * 9007199254740992 - j) by lia.
    assert (Hj : 0 < j) by lia.
    assert (HkT : k <= T).
    { destruct (Z_le_gt_dec k T) as [|Hgt]; [assumption|]. exfalso.
      assert (k * 9007199254740992 - j < 9007199254740992 * T) by lia.
      nia. }
    assert (Hjh : j < h) by lia.
    destruct (divmod_eq m T (k * U - 1) (T - j)) as [Eq Er]; [lia | nia |].
    fold q in Eq. fold r in Er.
    destruct Hq as [[-> Hle]|[-> Hge]]; [lia|].
    rewrite Eq. replace (k * U - 1 + 1) with (k * U) by lia.
    apply Z.div_mul. lia.
  - apply div_between; [assumption|].
    assert (Hlow : k * U <= q).
    { destruct (Z_le_gt_dec (k * U) q) as [|Hgt]; [assumption|]. exfalso.
      assert (q + 1 <= k * U) by lia.
      assert ((q + 1) * T <= k * U * T) by (apply Z.mul_le_mono_nonneg_r; lia).
      nia. }
    assert (Hhigh : q + 1 < (k + 1) * U).
    { destruct (Z_lt_ge_dec (q + 1) ((k + 1) * U)) as [|Hge]; [assumption|]. exfalso.
      assert ((k + 1) * U * T <= (q + 1) * T) by (apply Z.mul_le_mono_nonneg_r; lia).
      nia. }
    destruct Hq as [[-> _]|[-> _]]; lia.
Qed.

(** The same for [0.2 * n]: the product is never below the exact value, so
    only the upper bound needs the size of the rounding error. *)
Lemma trunc_0_2 (n m T h U q' : Z) :
  2 <= n < 2 ^ 50 ->
  m = 7205759403792794 * n ->
  T = 2 * h -> 0 < h -> T * U = 2 ^ 55 ->
  2 ^ 52 * T <= m < 2 ^ 53 * T ->
  ((q' = m / T /\ m mod T <= h) \/ (q' = m / T + 1 /\ h <= m mod T)) ->
  q' / U = n / 5.
Proof.
  intros Hn Em ET Hh ETU Hm Hq.
  change (2 ^ 50) with 1125899906842624 in *.
  change (2 ^ 52) with 4503599627370496 in *.
  change (2 ^ 53) with 9007199254740992 in *.
  change (2 ^ 55) with 36028797018963968 in *.
  assert (HT : 0 < T) by lia.
  assert (HU : 0 < U) by nia.
  pose proof (Z.div_mod m T ltac:(lia)) as Edm.
  pose proof (Z.mod_pos_bound m T HT) as Hr.
  pose proof (Z.div_mod n 5 ltac:(lia)) as Ek.
  pose proof (Z.mod_pos_bound n 5 ltac:(lia)) as Hrho.
  set (q := m / T) in *. set (r := m mod T) in *.
  set (k := n / 5) in *. set (rho := n mod 5) in *.
  assert (HTb : T < 1801439850948199) by nia.
  assert (E5 : 5 * m = (5 * k + rho) * 36028797018963968 + 2 * n) by lia.
  assert (EkTU : k * U * T = k * 36028797018963968) by nia.
  apply div_between; [assumption|].
  assert (Hlow : k * U <= q).
  { destruct (Z_le_gt_dec (k * U) q) as [|Hgt]; [assumption|]. exfalso.
    assert (q + 1 <= k * U) by lia.
    assert ((q + 1) * T <= k * U * T) by (apply Z.mul_le_mono_nonneg_r; lia).
    nia. }
  assert (Hhigh : q + 1 < (k + 1) * U).
  { destruct (Z_lt_ge_dec (q + 1) ((k + 1) * U)) as [|Hge]; [assumption|]. exfalso.
    assert ((k + 1) * U * T <= (q + 1) * T) by (apply Z.mul_le_mono_nonneg_r; lia).
    nia. }
  destruct Hq as [[-> _]|[-> _]]; lia.
Qed.

(** [round(0.1 * n)]: the product rounds to the nearest integer of [n/10],
    and a tie [k + 1/2] is computed exactly, so that it resolves to even. *)
Lemma round_0_1 (n m T h U V q' : Z) :
  2 <= n < 2 ^ 50 ->
  m = 7205759403792794 * n ->
  T = 2 * h -> 0 < h -> T * U = 2 ^ 56 -> U = 2 * V ->
  2 ^ 52 * T <= m < 2 ^ 53 * T ->
  ((q' = m / T /\ m mod T <= h) \/ (q' = m / T + 1 /\ h <= m mod T)) ->
  (if 2 * (q' mod U) <? U then q' / U
   else if U <? 2 * (q' mod U) then q' / U + 1
   else if Z.even (q' / U) then q' / U else q' / U + 1) = nearest_tenth n.
Proof.
  intros Hn Em ET Hh ETU EU Hm Hq.
  change (2 ^ 50) with 1125899906842624 in *.
  change (2 ^ 52) with 4503599627370496 in *.
  change (2 ^ 53) with 9007199254740992 in *.
  change (2 ^ 56) with 72057594037927936 in *.
  assert (HT : 0 < T) by lia.
  assert (HU : 0 < U) by nia.
  assert (HV : 0 < V) by lia.
  pose proof (Z.div_mod m T ltac:(lia)) as Edm.
  pose proof (Z.mod_pos_bound m T HT) as Hr.
  pose proof (Z.div_mod n 10 ltac:(lia)) as Ek.
  pose proof (Z.mod_pos_bound n 10 ltac:(lia)) as Hrho.
  unfold nearest_tenth.
  set (q := m / T) in *. set (r := m mod T) in *.
  set (k := n / 10) in *. set (rho := n mod 10) in *.
  assert (HTb : T < 1801439850948199) by nia.
  assert (E10 : 10 * m = (10 * k + rho) * 72057594037927936 + 4 * n) by lia.
  assert (EkTU : k * U * T = k * 72057594037927936) by nia.
  assert (EUT : U * T = 72057594037927936) by lia.
  assert (Hlow : k * U <= q).
  { destruct (Z_le_gt_dec (k * U) q) as [|Hgt]; [assumption|]. exfalso.
    assert (q + 1 <= k * U) by lia.
    assert ((q + 1) * T <= k * U * T) by (apply Z.mul_le_mono_nonneg_r; lia).
    nia. }
  destruct (Z.ltb_spec rho 5) as [Hlt|Hge].
  - (* below the half: rounds down *)
    assert (Hhigh : 2 * (q + 1) < (2 * k + 1) * U).
    { destruct (Z_lt_ge_dec (2 * (q + 1)) ((2 * k + 1) * U)) as [|Hc]; [assumption|]. exfalso.
      assert ((2 * k + 1) * U * T <= 2 * (q + 1) * T) by (apply Z.mul_le_mono_nonneg_r; lia).
      nia. }
    destruct (divmod_eq q' U k (q' - U * k)) as [EQ ER];
      [destruct Hq as [[-> _]|[-> _]]; lia | lia |].
    rewrite EQ, ER.
    destruct (Z.ltb_spec (2 * (q' - U * k)) U) as [|Hc]; [reflexivity|].
    exfalso. destruct Hq as [[-> _]|[-> _]]; lia.
  - destruct (Z.ltb_spec 5 rho) as [Hgt|Hle].
    + (* above the half: rounds up *)
      assert (Hl2 : (2 * k + 1) * U < 2 * q).
      { destruct (Z_lt_ge_dec ((2 * k + 1) * U) (2 * q)) as [|Hc]; [assumption|]. exfalso.
        assert (2 * q * T <= (2 * k + 1) * U * T) by (apply Z.mul_le_mono_nonneg_r; lia).
        nia. }
      assert (Hh2 : 2 * (q + 1) < (2 * k + 3) * U).
      { destruct (Z_lt_ge_dec (2 * (q + 1)) ((2 * k + 3) * U)) as [|Hc]; [assumption|]. exfalso.
        assert ((2 * k + 3) * U * T <= 2 * (q + 1) * T) by (apply Z.mul_le_mono_nonneg_r; lia).
        nia. }
      assert (Hq' : (2 * k + 1) * U < 2 * q' < (2 * k + 3) * U)
        by (destruct Hq as [[-> _]|[-> _]]; lia).
      destruct (Z_lt_ge_dec q' ((k + 1) * U)) as [Hs|Hs].
      * destruct (divmod_eq q' U k (q' - U * k)) as [EQ ER]; [lia | lia |].
        rewrite EQ, ER.
        destruct (Z.ltb_spec (2 * (q' - U * k)) U) as [|_]; [lia|].
        destruct (Z.ltb_spec U (2 * (q' - U * k))) as [|]; [reflexivity|lia].
      * destruct (divmod_eq q' U (k + 1) (q' - U * (k + 1))) as [EQ ER]; [lia | lia |].
        rewrite EQ, ER.
        destruct (Z.ltb_spec (2 * (q' - U * (k + 1))) U) as [|]; [reflexivity|lia].
    + (* the tie: n = 10k + 5 *)
      assert (Erho : rho = 5) by lia.
      assert (Emw : m = (2 * k + 1) * V * T + 2 * (2 * k + 1)) by nia.
      assert (Hw : 4 * (2 * k + 1) < T) by nia.
      destruct (divmod_eq m T ((2 * k + 1) * V) (2 * (2 * k + 1))) as [Eq Er]; [lia | lia |].
      fold q in Eq. fold r in Er.
      assert (Eq' : q' = (2 * k + 1) * V) by (destruct Hq as [[-> _]|[-> Hc]]; lia).
      destruct (divmod_eq q' U k V) as [EQ ER]; [lia | nia |].
      rewrite EQ, ER.
      destruct (Z.ltb_spec (2 * V) U) as [|_]; [lia|].
      destruct (Z.ltb_spec U (2 * V)) as [|_]; [lia|].
      reflexivity.
Qed.

End Exactness.

(* ================================================================== *)
(** * The sizes computed by the split cell *)
(* ================================================================== *)

Section Sizes.

Import Binary64.

Lemma dropped_bits_lt (s m : Z) :
  0 < s -> 2 ^ 52 * 2 ^ s <= m -> m < 2 ^ 52 * 2 ^ 52 -> s < 52.
Proof.
  intros Hs Hlo Hhi.
  apply (Z.pow_lt_mono_r_iff 2); [lia | lia |].
  assert (0 < 2 ^ 52) by reflexivity. nia.
Qed.

Lemma pow2_split (e s : Z) : 0 <= s <= e -> 2 ^ s * 2 ^ (e - s) = 2 ^ e.
Proof.
  intros H. rewrite <- Z.pow_add_r by lia. f_equal. lia.
Qed.

(** [int(0.6 * n)] is the floor of [3n/5] for every length a list can have. *)
Lemma train_size_floor (n : Z) : 0 <= n < 2 ^ 50 -> train_size n = 3 * n / 5.
Proof.
  intros Hn.
  destruct (Z_lt_ge_dec n 2) as [Hsmall|Hbig].
  { assert (n = 0 \/ n = 1) as [-> | ->] by lia; reflexivity. }
  unfold train_size, fmul, of_int, normalize.
  rewrite (rne53_small n) by (change (2 ^ 50) with 1125899906842624 in Hn;
                              change (2 ^ 53) with 9007199254740992; lia).
  cbn [mant expo lit_0_6].
  destruct (rne53_big (5404319552844595 * n)) as (s & q' & E & Hs & Hm & ET & Hh & Hq).
  { change (2 ^ 53) with 9007199254740992. lia. }
  rewrite E.
  assert (Hs52 : s < 52).
  { apply (dropped_bits_lt s (5404319552844595 * n)); [lia | lia |].
    change (2 ^ 50) with 1125899906842624 in Hn.
    change (2 ^ 52) with 4503599627370496. lia. }
  unfold to_int. cbn [mant expo].
  replace (-53 + (0 + 0) + s) with (s - 53) by lia.
  destruct (Z.leb_spec 0 (s - 53)) as [Hc|_]; [lia|].
  apply (Exactness.trunc_0_6 n (5404319552844595 * n) (2 ^ s) (2 ^ (s - 1)));
    [ lia | reflexivity | exact ET | exact Hh | | exact Hm | exact Hq ].
  replace (- (s - 53)) with (53 - s) by lia. apply pow2_split. lia.
Qed.

(** [int(0.2 * n)] is the floor of [n/5]. *)
Lemma val_size_floor (n : Z) : 0 <= n < 2 ^ 50 -> val_size n = n / 5.
Proof.
  intros Hn.
  destruct (Z_lt_ge_dec n 2) as [Hsmall|Hbig].
  { assert (n = 0 \/ n = 1) as [-> | ->] by lia; reflexivity. }
  unfold val_size, fmul, of_int, normalize.
  rewrite (rne53_small n) by (change (2 ^ 50) with 1125899906842624 in Hn;
                              change (2 ^ 53) with 9007199254740992; lia).
  cbn [mant expo lit_0_2].
  destruct (rne53_big (7205759403792794 * n)) as (s & q' & E & Hs & Hm & ET & Hh & Hq).
  { change (2 ^ 53) with 9007199254740992. lia. }
  rewrite E.
  assert (Hs52 : s < 52).
  { apply (dropped_bits_lt s (7205759403792794 * n)); [lia | lia |].
    change (2 ^ 50) with 1125899906842624 in Hn.
    change (2 ^ 52) with 4503599627370496. lia. }
  unfold to_int. cbn [mant expo].
  replace (-55 + (0 + 0) + s) with (s - 55) by lia.
  destruct (Z.leb_spec 0 (s - 55)) as [Hc|_]; [lia|].
  apply (Exactness.trunc_0_2 n (7205759403792794 * n) (2 ^ s) (2 ^ (s - 1)));
    [ lia | reflexivity | exact ET | exact Hh | | exact Hm | exact Hq ].
  replace (- (s - 55)) with (55 - s) by lia. apply pow2_split. lia.
Qed.

(** [round(0.1 * n)] is the integer nearest to [n/10], ties to even. *)
Lemma sample_count (n : Z) :
  0 <= n < 2 ^ 50 -> py_round (fmul lit_0_1 (of_int n)) = nearest_tenth n.
Proof.
  intros Hn.
  destruct (Z_lt_ge_dec n 2) as [Hsmall|Hbig].
  { assert (n = 0 \/ n = 1) as [-> | ->] by lia; reflexivity. }
  unfold fmul, of_int, normalize.
  rewrite (rne53_small n) by (change (2 ^ 50) with 1125899906842624 in Hn;
                              change (2 ^ 53) with 9007199254740992; lia).
  cbn [mant expo lit_0_1].
  destruct (rne53_big (7205759403792794 * n)) as (s & q' & E & Hs & Hm & ET & Hh & Hq).
  { change (2 ^ 53) with 9007199254740992. lia. }
  rewrite E.
  assert (Hs52 : s < 52).
  { apply (dropped_bits_lt s (7205759403792794 * n)); [lia | lia |].
    change (2 ^ 50) with 1125899906842624 in Hn.
    change (2 ^ 52) with 4503599627370496. lia. }
  unfold py_round. cbn [mant expo].
  replace (-56 + (0 + 0) + s) with (s - 56) by lia.
  destruct (Z.leb_spec 0 (s - 56)) as [Hc|_]; [lia|].
  cbv zeta. replace (- (s - 56)) with (56 - s) by lia.
  apply (Exactness.round_0_1 n (7205759403792794 * n) (2 ^ s) (2 ^ (s - 1))
           (2 ^ (56 - s)) (2 ^ (55 - s)));
    [ lia | reflexivity | exact ET | exact Hh | | | exact Hm | exact Hq ].
  - apply pow2_split. lia.
  - replace (56 - s) with (1 + (55 - s)) by lia.
    rewrite Z.pow_add_r by lia. reflexivity.
Qed.

Lemma nearest_tenth_bounds (n : Z) :
  0 <= n -> 0 <= nearest_tenth n <= n /\ -5 <= 10 * nearest_tenth n - n <= 5.
Proof.
  intros Hn. unfold nearest_tenth. cbv zeta.
  pose proof (Z.div_mod n 10 ltac:(lia)).
  pose proof (Z.mod_pos_bound n 10 ltac:(lia)).
  destruct (Z.ltb_spec (n mod 10) 5); [lia|].
  destruct (Z.ltb_spec 5 (n mod 10)); [lia|].
  destruct (Z.even (n / 10)); lia.
Qed.

End Sizes.

(* ================================================================== *)
(** * Python slices *)
(* ================================================================== *)

Section Slices.

Context {A : Type}.

Lemma slice_prefix (l : list A) (a : Z) :
  0 <= a -> Py.slice l None (Some a) = firstn (Z.to_nat a) l.
Proof.
  intros Ha. unfold Py.slice, Py.slice_bounds, Py.clamp_index.
  destruct (Z.ltb_spec a 0) as [|_]; [lia|].
  rewrite Z.sub_0_r. cbn [Z.to_nat skipn].
  destruct (Z.min_spec a (Z.of_nat (List.length l))) as [[Hlt ->]|[Hge ->]].
  - reflexivity.
  - rewrite Nat2Z.id. rewrite firstn_all. symmetry. apply firstn_all2. lia.
Qed.

Lemma slice_suffix (l : list A) (b : Z) :
  0 <= b -> Py.slice l (Some b) None = skipn (Z.to_nat b) l.
Proof.
  intros Hb. unfold Py.slice, Py.slice_bounds, Py.clamp_index.
  destruct (Z.ltb_spec b 0) as [|_]; [lia|].
  destruct (Z.min_spec b (Z.of_nat (List.length l))) as [[Hlt ->]|[Hge ->]].
  - apply firstn_all2. rewrite length_skipn. lia.
  - rewrite Nat2Z.id, skipn_all. cbn.
    rewrite firstn_nil. symmetry. apply skipn_all2. lia.
Qed.

Lemma slice_middle (l : list A) (a b : Z) :
  0 <= a <= b ->
  Py.slice l (Some a) (Some b) = firstn (Z.to_nat b - Z.to_nat a) (skipn (Z.to_nat a) l).
Proof.
  intros Hab. unfold Py.slice, Py.slice_bounds, Py.clamp_index.
  destruct (Z.ltb_spec a 0) as [|_]; [lia|].
  destruct (Z.ltb_spec b 0) as [|_]; [lia|].
  set (len := List.length l).
  destruct (Z.min_spec a (Z.of_nat len)) as [[Ha ->]|[Ha ->]];
    destruct (Z.min_spec b (Z.of_nat len)) as [[Hb ->]|[Hb ->]].
  - f_equal. lia.
  - rewrite !firstn_all2; try reflexivity; rewrite length_skipn; fold len; lia.
  - lia.
  - rewrite Nat2Z.id. unfold len. rewrite skipn_all, !firstn_nil.
    rewrite skipn_all2 by lia. rewrite firstn_nil. reflexivity.
Qed.

(** Three consecutive slices [l[:a]], [l[a:a+v]], [l[a+v:]] give back [l]. *)
Lemma three_slices (l : list A) (a v : Z) :
  0 <= a -> 0 <= v ->
  Py.slice l None (Some a) ++ Py.slice l (Some a) (Some (a + v))
    ++ Py.slice l (Some (a + v)) None = l.
Proof.
  intros Ha Hv.
  rewrite slice_prefix, slice_middle, slice_suffix by lia.
  replace (Z.to_nat (a + v)) with (Z.to_nat v + Z.to_nat a)%nat by lia.
  replace (Z.to_nat v + Z.to_nat a - Z.to_nat a)%nat with (Z.to_nat v) by lia.
  rewrite <- skipn_skipn.
  rewrite firstn_skipn. apply firstn_skipn.
Qed.

End Slices.

(* ================================================================== *)
(** * Non-negative sizes *)
(* ================================================================== *)

Section NonNegative.

Import Binary64.

Lemma rne53_nonneg (m : Z) : 0 <= m -> 0 <= fst (rne53 m).
Proof.
  intros Hm. unfold rne53. cbv zeta.
  assert (Hq : 0 <= m / 2 ^ (Z.log2 m - 52)).
  { apply Z_div_nonneg_nonneg; [assumption|]. apply Z.pow_nonneg. lia. }
  repeat match goal with |- context [if ?c then _ else _] => destruct c end;
    cbn [fst]; lia.
Qed.

Lemma to_int_normalize_nonneg (m e : Z) : 0 <= m -> 0 <= to_int (normalize m e).
Proof.
  intros Hm. pose proof (rne53_nonneg m Hm) as Hq.
  unfold normalize. destruct (rne53 m) as [q s]. cbn [fst] in Hq.
  unfold to_int. cbn [mant expo].
  destruct (0 <=? e + s).
  - apply Z.mul_nonneg_nonneg; [assumption|]. apply Z.pow_nonneg. lia.
  - apply Z_div_nonneg_nonneg; [assumption|]. apply Z.pow_nonneg. lia.
Qed.

Lemma of_int_mant_nonneg (n : Z) : 0 <= n -> 0 <= mant (of_int n).
Proof.
  intros Hn. pose proof (rne53_nonneg n Hn) as Hq.
  unfold of_int, normalize. destruct (rne53 n) as [q s]. exact Hq.
Qed.

Lemma train_size_nonneg (n : Z) : 0 <= n -> 0 <= train_size n.
Proof.
  intros Hn. unfold train_size, fmul. apply to_int_normalize_nonneg.
  apply Z.mul_nonneg_nonneg; [cbn; lia | apply of_int_mant_nonneg; assumption].
Qed.

Lemma val_size_nonneg (n : Z) : 0 <= n -> 0 <= val_size n.
Proof.
  intros Hn. unfold val_size, fmul. apply to_int_normalize_nonneg.
  apply Z.mul_nonneg_nonneg; [cbn; lia | apply of_int_mant_nonneg; assumption].
Qed.

End NonNegative.

(* ================================================================== *)
(** * The shuffle *)
(* ================================================================== *)

Section Rearrange.

Context {A : Type}.

Lemma pick_middle (pre : list A) (x : A) (l : list A) :
  pick (pre ++ x :: l) (List.length pre) = [x].
Proof.
  unfold pick. rewrite nth_error_app2 by lia. rewrite Nat.sub_diag. reflexivity.
Qed.

Lemma rearrange_in_order (pre l : list A) :
  flat_map (pick (pre ++ l)) (seq (List.length pre) (List.length l)) = l.
Proof.
  revert pre. induction l as [|x l IH]; intros pre; [reflexivity|].
  cbn [List.length seq flat_map]. rewrite pick_middle. cbn [app]. f_equal.
  specialize (IH (pre ++ [x])).
  rewrite <- app_assoc, length_app in IH. cbn in IH.
  rewrite Nat.add_1_r in IH. exact IH.
Qed.

Lemma rearrange_identity (l : list A) : rearrange l (seq 0 (List.length l)) = l.
Proof. exact (rearrange_in_order [] l). Qed.

(** Moving the elements along a rearrangement of the positions rearranges
    the list. *)
Lemma rearrange_perm (l : list A) (p : list nat) :
  Permutation (seq 0 (List.length l)) p -> Permutation l (rearrange l p).
Proof.
  intros Hp. rewrite <- (rearrange_identity l) at 1.
  unfold rearrange. apply Permutation_flat_map. exact Hp.
Qed.

End Rearrange.

(** The shuffle does not look at the elements. *)
Lemma rearrange_map {A B : Type} (f : A -> B) (l : list A) (p : list nat) :
  rearrange (map f l) p = map f (rearrange l p).
Proof.
  unfold rearrange. induction p as [|i p IH]; [reflexivity|].
  cbn [flat_map]. rewrite map_app, IH. f_equal.
  unfold pick. rewrite nth_error_map. destruct (nth_error l i); reflexivity.
Qed.

(* ================================================================== *)
(** * The ingestion loop *)
(* ================================================================== *)

Section Ingestion.

Context {R : PyRandom}.

Lemma ingest_from_closed (dataset : list Row) (acc : list Example) (st : interp) :
  ingest_from acc dataset st =
    (acc ++ examples_from (next_oid st) dataset,
     mkInterp (next_oid st + List.length dataset) (py_random st)).
Proof.
  revert acc st. induction dataset as [|row rest IH]; intros acc st.
  - cbn. rewrite app_nil_r, Nat.add_0_r. destruct st; reflexivity.
  - cbn [ingest_from examples_from List.length].
    unfold bind, ingest_row, alloc, ret. cbn [bind].
    rewrite IH. cbn [next_oid py_random].
    rewrite <- app_assoc. cbn [app]. unfold example_of_row.
    f_equal. f_equal. lia.
Qed.

Lemma ingest_closed (dataset : list Row) (st : interp) :
  ingest dataset st =
    (examples_from (next_oid st) dataset,
     mkInterp (next_oid st + List.length dataset) (py_random st)).
Proof. unfold ingest. rewrite ingest_from_closed. reflexivity. Qed.

End Ingestion.

Lemma examples_from_oid (dataset : list Row) (o : nat) :
  map oid (examples_from o dataset) = seq o (List.length dataset).
Proof.
  revert o. induction dataset as [|row rest IH]; intros o; [reflexivity|].
  cbn. f_equal. apply IH.
Qed.

Lemma examples_from_fields (dataset : list Row) (o : nat) :
  map fields (examples_from o dataset) = map fields_of_row dataset.
Proof.
  revert o. induction dataset as [|row rest IH]; intros o; [reflexivity|].
  cbn [examples_from map]. f_equal. apply IH.
Qed.

Lemma examples_from_length (dataset : list Row) (o : nat) :
  List.length (examples_from o dataset) = List.length dataset.
Proof.
  rewrite <- (length_map oid), examples_from_oid. apply length_seq.
Qed.


(* ================================================================== *)
(** * The split cell and the Partitioner *)
(* ================================================================== *)

Lemma split_concat (l : list Example) :
  train (split l) ++ val (split l) ++ test (split l) = l.
Proof.
  unfold split. cbn [train val test].
  apply three_slices; [apply train_size_nonneg | apply val_size_nonneg]; lia.
Qed.

Lemma split_train (l : list Example) :
  train (split l) = firstn (Z.to_nat (train_size (Z.of_nat (List.length l)))) l.
Proof.
  unfold split. cbn [train]. apply slice_prefix. apply train_size_nonneg. lia.
Qed.

Lemma split_val (l : list Example) :
  let len := Z.of_nat (List.length l) in
  val (split l) =
    firstn (Z.to_nat (val_size len)) (skipn (Z.to_nat (train_size len)) l).
Proof.
  cbv zeta. unfold split. cbn [val].
  pose proof (train_size_nonneg (Z.of_nat (List.length l)) ltac:(lia)).
  pose proof (val_size_nonneg (Z.of_nat (List.length l)) ltac:(lia)).
  rewrite slice_middle by lia. f_equal. lia.
Qed.

Lemma split_test (l : list Example) :
  let len := Z.of_nat (List.length l) in
  test (split l) = skipn (Z.to_nat (train_size len) + Z.to_nat (val_size len)) l.
Proof.
  cbv zeta. unfold split. cbn [test].
  pose proof (train_size_nonneg (Z.of_nat (List.length l)) ltac:(lia)).
  pose proof (val_size_nonneg (Z.of_nat (List.length l)) ltac:(lia)).
  rewrite slice_suffix by lia. f_equal. lia.
Qed.

Section Partitioner.

Context {R : PyRandom}.

(** The Partitioner, with the monad unfolded. *)
Lemma partitioner_unfold (seed : Z) (dspy_dataset : list Example) (st : interp) :
  run (partitioner seed dspy_dataset) st =
    let shuffled :=
      rearrange dspy_dataset
        (fst (mt_positions (mt_seed seed) (List.length dspy_dataset))) in
    (shuffled, split shuffled).
Proof.
  unfold run, partitioner, bind, random_seed, random_shuffle, ret.
  cbn [py_random next_oid].
  destruct (mt_positions (mt_seed seed) (List.length dspy_dataset)) as [p g].
  reflexivity.
Qed.

Lemma partitioner_perm {L : PyRandomLaws R} (seed : Z) (dspy_dataset : list Example)
      (st : interp) :
  Permutation dspy_dataset (fst (run (partitioner seed dspy_dataset) st)).
Proof.
  rewrite partitioner_unfold. cbn [fst].
  apply rearrange_perm. apply mt_positions_perm.
Qed.

Lemma partitioner_concat (seed : Z) (dspy_dataset : list Example) (st : interp) :
  train (snd (run (partitioner seed dspy_dataset) st))
    ++ val (snd (run (partitioner seed dspy_dataset) st))
    ++ test (snd (run (partitioner seed dspy_dataset) st))
  = fst (run (partitioner seed dspy_dataset) st).
Proof.
  rewrite partitioner_unfold. cbv zeta. cbn [fst snd]. apply split_concat.
Qed.

End Partitioner.

(* ================================================================== *)
(** * Properties of the partition *)
(* ================================================================== *)



(** ** Laws of the reference instances *)

Lemma extract_perm {A : Type} (l : list A) (i : nat) (x : A) (rest : list A) :
  Reference.extract i l = Some (x, rest) -> Permutation l (x :: rest).
Proof.
  revert i x rest. induction l as [|y l IH]; intros i x rest H; [destruct i; discriminate|].
  destruct i as [|j]; cbn in H.
  - inversion H; subst. reflexivity.
  - destruct (Reference.extract j l) as [[z r]|] eqn:E; [|discriminate].
    inversion H; subst. rewrite (IH _ _ _ E). apply perm_swap.
Qed.

Lemma draw_perm (fuel : nat) (g : Z) (pool : list nat) :
  Permutation pool (fst (Reference.draw fuel g pool)).
Proof.
  revert g pool. induction fuel as [|fuel IH]; intros g pool; [reflexivity|].
  cbn [Reference.draw].
  destruct (Reference.extract _ pool) as [[x rest]|] eqn:E; [|reflexivity].
  specialize (IH (Reference.lcg_next g) rest).
  destruct (Reference.draw fuel (Reference.lcg_next g) rest) as [t g''].
  cbn [fst] in *. rewrite (extract_perm _ _ _ _ E). apply perm_skip. exact IH.
Qed.

Lemma lcg_random_laws : PyRandomLaws Reference.lcg_random.
Proof. constructor. intros g n. apply draw_perm. Qed.

Lemma firstn_is_sample {A : Type} (k : nat) (l : list A) :
  exists rest, Permutation (firstn k l ++ rest) l.
Proof. exists (skipn k l). rewrite firstn_skipn. reflexivity. Qed.

Lemma head_sample_laws : PandasSampleLaws Reference.head_sample.
Proof.
  constructor.
  - intros frac rs rows n k Hk. cbn [df_sample Reference.head_sample].
    fold n. fold k. rewrite length_firstn. lia.
  - intros frac rs rows. apply firstn_is_sample.
Qed.

(* ================================================================== *)
(** * What the Partitioner guarantees *)
(* ================================================================== *)

(** ** Reconstruction of the shuffled data set *)

(** C10. The three subsets are consecutive slices of the shuffled data set,
    in its order: [train] is a prefix, [val] the range that follows it and
    [test] the rest, and [train ++ val ++ test] is the shuffled list itself,
    element for element, so the split neither duplicates, drops nor
    reorders anything.  This holds for every seed, every data set and every
    interpreter state, whatever generator the shuffle draws from. *)
Theorem split_reconstructs_shuffled
  {R : PyRandom} (seed : Z) (dspy_dataset : list Example) (st : interp) :
  let result := run (partitioner seed dspy_dataset) st in
  let shuffled := fst result in
  let subsets := snd result in
  let len := Z.of_nat (List.length shuffled) in
  let t := Z.to_nat (train_size len) in
  let v := Z.to_nat (val_size len) in
  train subsets = firstn t shuffled /\
  val subsets = firstn v (skipn t shuffled) /\
  test subsets = skipn (t + v) shuffled /\
  train subsets ++ val subsets ++ test subsets = shuffled.
Proof.
  cbv zeta. split; [|split; [|split]].
  - rewrite partitioner_unfold. cbv zeta. cbn [fst snd]. apply split_train.
  - rewrite partitioner_unfold. cbv zeta. cbn [fst snd]. apply split_val.
  - rewrite partitioner_unfold. cbv zeta. cbn [fst snd]. apply split_test.
  - apply partitioner_concat.
Qed.

(** ** Lengths and disjointness *)



(** ** Sizes *)

Lemma sixty_percent (n : Z) : 6 * n / 10 = 3 * n / 5.
Proof.
  replace (6 * n) with (2 * (3 * n)) by lia.
  change 10 with (2 * 5). apply Z.div_mul_cancel_l; lia.
Qed.

Lemma twenty_percent (n : Z) : 2 * n / 10 = n / 5.
Proof. change 10 with (2 * 5). apply Z.div_mul_cancel_l; lia. Qed.

Lemma fifths_fit (n : Z) :
  0 <= n -> 0 <= 3 * n / 5 /\ 0 <= n / 5 /\ 3 * n / 5 + n / 5 <= n.
Proof.
  intros Hn.
  pose proof (Z.div_mod (3 * n) 5 ltac:(lia)).
  pose proof (Z.mod_pos_bound (3 * n) 5 ltac:(lia)).
  pose proof (Z.div_mod n 5 ltac:(lia)).
  pose proof (Z.mod_pos_bound n 5 ltac:(lia)). lia.
Qed.

(** The three slices of the split cell, as ranges of its argument. *)
Lemma split_ranges (l : list Example) :
  let n := Z.of_nat (List.length l) in
  n < 2 ^ 50 ->
  let t := Z.to_nat (6 * n / 10) in
  let v := Z.to_nat (2 * n / 10) in
  train (split l) = firstn t l /\
  val (split l) = firstn v (skipn t l) /\
  test (split l) = skipn (t + v) l.
Proof.
  intros n Hn. cbv zeta. rewrite sixty_percent, twenty_percent.
  rewrite split_train, split_val, split_test. cbv zeta. fold n.
  rewrite train_size_floor, val_size_floor by lia.
  repeat split; reflexivity.
Qed.

Lemma split_lengths (l : list Example) :
  let n := Z.of_nat (List.length l) in
  n < 2 ^ 50 ->
  Z.of_nat (List.length (train (split l))) = 6 * n / 10 /\
  Z.of_nat (List.length (val (split l))) = 2 * n / 10 /\
  Z.of_nat (List.length (test (split l))) = n - 6 * n / 10 - 2 * n / 10.
Proof.
  intros n Hn.
  destruct (split_ranges l Hn) as (H1 & H2 & H3).
  rewrite H1, H2, H3. clear H1 H2 H3.
  rewrite !length_firstn, !length_skipn. fold n.
  assert (En : n = Z.of_nat (List.length l)) by reflexivity.
  clearbody n. rewrite !sixty_percent, !twenty_percent.
  pose proof (fifths_fit n ltac:(lia)) as (B1 & B2 & B3).
  repeat split; lia.
Qed.

(** C3. For every seed and every data set of [n] examples, [1 <= n], the
    Partitioner returns the first [floor(0.6 n)] elements of the shuffled
    list as [train], the next [floor(0.2 n)] as [val] and the remaining
    [n - floor(0.6 n) - floor(0.2 n)] as [test]; for ten examples the sizes
    are (6, 2, 2).  The sizes are computed in binary64; the statement covers
    every length below [2^50]. *)
Theorem partition_sizes
  {R : PyRandom} {L : PyRandomLaws R}
  (seed : Z) (dspy_dataset : list Example) (st : interp) :
  let n := Z.of_nat (List.length dspy_dataset) in
  1 <= n < 2 ^ 50 ->
  let result := run (partitioner seed dspy_dataset) st in
  let shuffled := fst result in
  let subsets := snd result in
  let t := 6 * n / 10 in
  let v := 2 * n / 10 in
  train subsets = firstn (Z.to_nat t) shuffled /\
  val subsets = firstn (Z.to_nat v) (skipn (Z.to_nat t) shuffled) /\
  test subsets = skipn (Z.to_nat t + Z.to_nat v) shuffled /\
  Z.of_nat (List.length (train subsets)) = t /\
  Z.of_nat (List.length (val subsets)) = v /\
  Z.of_nat (List.length (test subsets)) = n - t - v /\
  (n = 10 ->
   (List.length (train subsets), List.length (val subsets),
    List.length (test subsets)) = (6, 2, 2)%nat).
Proof.
  intros n Hn. cbv zeta.
  pose proof (partitioner_perm seed dspy_dataset st) as Hperm.
  apply Permutation_length in Hperm.
  rewrite partitioner_unfold in *. cbv zeta in *. cbn [fst snd] in *.
  set (shuffled := rearrange dspy_dataset _) in *.
  assert (Hlen : Z.of_nat (List.length shuffled) = n) by (unfold n; lia).
  assert (Hb : Z.of_nat (List.length shuffled) < 2 ^ 50) by lia.
  destruct (split_ranges shuffled Hb) as (H1 & H2 & H3).
  destruct (split_lengths shuffled Hb) as (L1 & L2 & L3).
  rewrite Hlen in *.
  repeat split; try assumption.
  intros E10. rewrite E10 in L1, L2, L3.
  change (6 * 10 / 10) with 6 in *. change (2 * 10 / 10) with 2 in *.
  f_equal; [f_equal|]; lia.
Qed.

Lemma partition_sizes_witness :
  let dspy_dataset := Reference.toy_examples 10 in
  let n := Z.of_nat (List.length dspy_dataset) in
  let result := run (partitioner SEED dspy_dataset) Reference.fresh in
  let shuffled := fst result in
  let subsets := snd result in
  let t := 6 * n / 10 in
  let v := 2 * n / 10 in
  train subsets = firstn (Z.to_nat t) shuffled /\
  val subsets = firstn (Z.to_nat v) (skipn (Z.to_nat t) shuffled) /\
  test subsets = skipn (Z.to_nat t + Z.to_nat v) shuffled /\
  Z.of_nat (List.length (train subsets)) = t /\
  Z.of_nat (List.length (val subsets)) = v /\
  Z.of_nat (List.length (test subsets)) = n - t - v /\
  (n = 10 ->
   (List.length (train subsets), List.length (val subsets),
    List.length (test subsets)) = (6, 2, 2)%nat).
Proof.
  apply (partition_sizes (L := lcg_random_laws)
           SEED (Reference.toy_examples 10) Reference.fresh).
  vm_compute. split; [discriminate | reflexivity].
Defined.

(** ** Determinism *)

(** C4. The Partitioner seeds the generator before it shuffles, so its
    result is a function of the seed and of the input list alone: started
    from any two interpreter states it returns the same shuffled list and
    the same three subsets, and so does a second run started from the state
    the first run left behind. *)
Theorem partitioner_deterministic
  {R : PyRandom} (seed : Z) (dspy_dataset : list Example) (st1 st2 : interp) :
  run (partitioner seed dspy_dataset) st1 = run (partitioner seed dspy_dataset) st2 /\
  run (partitioner seed dspy_dataset) (snd (partitioner seed dspy_dataset st1))
    = run (partitioner seed dspy_dataset) st1.
Proof.
  rewrite !partitioner_unfold. split; reflexivity.
Qed.

(** ** The notebook as a whole *)

Section Notebook.

Context {R : PyRandom} {P : PandasSample}.

(** The run of the cells, with the monad unfolded. *)
Lemma notebook_unfold (loaded : list Row) (st : interp) :
  run (notebook loaded) st =
    let dspy_dataset := examples_from (next_oid st) (downsample loaded) in
    let shuffled :=
      rearrange dspy_dataset
        (fst (mt_positions (mt_seed SEED) (List.length dspy_dataset))) in
    (shuffled, split shuffled).
Proof.
  unfold run, notebook, bind, random_seed, random_shuffle, ret.
  rewrite ingest_closed. cbn [py_random next_oid].
  destruct (mt_positions (mt_seed SEED) _) as [p g]. reflexivity.
Qed.

(** The fields of the shuffled examples do not depend on the interpreter
    state the notebook is started from. *)
Lemma notebook_fields (loaded : list Row) (st : interp) :
  map fields (fst (run (notebook loaded) st)) =
    rearrange (map fields_of_row (downsample loaded))
      (fst (mt_positions (mt_seed SEED) (List.length (downsample loaded)))).
Proof.
  rewrite notebook_unfold. cbv zeta. cbn [fst].
  rewrite <- rearrange_map, examples_from_fields, examples_from_length.
  reflexivity.
Qed.

End Notebook.

(** The split of two lists with the same fields has the same fields. *)
Lemma split_fields (l1 l2 : list Example) :
  map fields l1 = map fields l2 ->
  map fields (train (split l1)) = map fields (train (split l2)) /\
  map fields (val (split l1)) = map fields (val (split l2)) /\
  map fields (test (split l1)) = map fields (test (split l2)).
Proof.
  intros E.
  assert (Hlen : List.length l1 = List.length l2).
  { rewrite <- (length_map fields l1), E. apply length_map. }
  rewrite !split_train, !split_val, !split_test. cbv zeta.
  rewrite Hlen, <- !firstn_map, <- !skipn_map, E. repeat split; reflexivity.
Qed.

(** C9. The notebook down-samples the loaded frame with
    [sample(frac=0.1, random_state=SEED)], [SEED = 1208], before it builds,
    shuffles and splits the data set.  For every loaded frame of [N] rows
    the examples handed to the harness are the rows of that sample and
    nothing else; their number is the integer nearest to [N / 10], which is
    within half a row of one tenth; the three subsets are cut from them;
    and a run started from any other interpreter state selects the same
    rows and yields subsets with the same fields in the same order. *)
Theorem notebook_downsamples_first
  {R : PyRandom} {LR : PyRandomLaws R} {P : PandasSample} {LP : PandasSampleLaws P}
  (loaded : list Row) (st st' : interp) :
  let N := Z.of_nat (List.length loaded) in
  N < 2 ^ 50 ->
  let sampled := df_sample Binary64.lit_0_1 1208 loaded in
  let result := run (notebook loaded) st in
  let shuffled := fst result in
  let subsets := snd result in
  let again := run (notebook loaded) st' in
  (exists rest, Permutation (sampled ++ rest) loaded) /\
  Permutation (map fields shuffled) (map fields_of_row sampled) /\
  train subsets ++ val subsets ++ test subsets = shuffled /\
  Z.of_nat (List.length shuffled) = nearest_tenth N /\
  -5 <= 10 * Z.of_nat (List.length shuffled) - N <= 5 /\
  map fields (fst again) = map fields shuffled /\
  map fields (train (snd again)) = map fields (train subsets) /\
  map fields (val (snd again)) = map fields (val subsets) /\
  map fields (test (snd again)) = map fields (test subsets).
Proof.
  intros N HN. cbv zeta.
  assert (Hfields : forall s, Permutation (map fields (fst (run (notebook loaded) s)))
                                (map fields_of_row (downsample loaded))).
  { intros s. rewrite notebook_fields. symmetry. apply rearrange_perm.
    rewrite length_map. apply mt_positions_perm. }
  assert (Hsame : map fields (fst (run (notebook loaded) st'))
                  = map fields (fst (run (notebook loaded) st))).
  { rewrite !notebook_fields. reflexivity. }
  assert (Hcount : Z.of_nat (List.length (downsample loaded)) = nearest_tenth N).
  { pose proof (nearest_tenth_bounds N ltac:(lia)) as [Hb _].
    pose proof (sample_count N ltac:(lia)) as Hc.
    unfold downsample. rewrite <- Hc. apply df_sample_size. fold N.
    rewrite Hc. exact Hb. }
  assert (Hlen : Z.of_nat (List.length (fst (run (notebook loaded) st))) = nearest_tenth N).
  { rewrite <- Hcount, <- (length_map fields_of_row (downsample loaded)).
    rewrite <- (Permutation_length (Hfields st)), length_map. reflexivity. }
  destruct (split_fields _ _ Hsame) as (S1 & S2 & S3).
  assert (Esnd : forall s, snd (run (notebook loaded) s) = split (fst (run (notebook loaded) s))).
  { intros s. rewrite notebook_unfold. reflexivity. }
  rewrite !Esnd.
  repeat split; try assumption.
  - apply df_sample_rows.
  - apply Hfields.
  - apply split_concat.
  - rewrite Hlen. apply nearest_tenth_bounds. lia.
  - rewrite Hlen. apply nearest_tenth_bounds. lia.
Qed.

Lemma notebook_downsamples_first_witness :
  let loaded := Reference.toy_rows 103 in
  let N := Z.of_nat (List.length loaded) in
  let sampled := @df_sample Reference.head_sample Binary64.lit_0_1 1208 loaded in
  let result := run (@notebook Reference.lcg_random Reference.head_sample loaded)
                    Reference.fresh in
  let shuffled := fst result in
  let subsets := snd result in
  let again := run (@notebook Reference.lcg_random Reference.head_sample loaded)
                   (@mkInterp Reference.lcg_random 500 77) in
  (exists rest, Permutation (sampled ++ rest) loaded) /\
  Permutation (map fields shuffled) (map fields_of_row sampled) /\
  train subsets ++ val subsets ++ test subsets = shuffled /\
  Z.of_nat (List.length shuffled) = nearest_tenth N /\
  -5 <= 10 * Z.of_nat (List.length shuffled) - N <= 5 /\
  map fields (fst again) = map fields shuffled /\
  map fields (train (snd again)) = map fields (train subsets) /\
  map fields (val (snd again)) = map fields (val subsets) /\
  map fields (test (snd again)) = map fields (test subsets).
Proof.
  apply (@notebook_downsamples_first Reference.lcg_random lcg_random_laws
           Reference.head_sample head_sample_laws
           (Reference.toy_rows 103) Reference.fresh (@mkInterp Reference.lcg_random 500 77)).
  vm_compute. reflexivity.
Defined.

(* ================================================================== *)
(** * Remarks on the model *)
(* ================================================================== *)

(** The literals are the doubles that the source text denotes. *)
Example literals_are_the_doubles :
  Binary64.of_prim 0x1.3333333333333p-1%float = Some Binary64.lit_0_6 /\
  Binary64.of_prim 0x1.999999999999ap-3%float = Some Binary64.lit_0_2 /\
  Binary64.of_prim 0x1.999999999999ap-4%float = Some Binary64.lit_0_1.
Proof. repeat split. Qed.

(** The modelled product is the machine product, on a sample of lengths
    that includes ties and lengths beyond the exact range. *)
Example product_is_the_machine_product :
  forallb
    (fun n =>
       Binary64.agrees_on Binary64.lit_0_6 0x1.3333333333333p-1%float n
       && Binary64.agrees_on Binary64.lit_0_2 0x1.999999999999ap-3%float n
       && Binary64.agrees_on Binary64.lit_0_1 0x1.999999999999ap-4%float n)
    [0; 1; 2; 3; 4; 5; 7; 10; 15; 25; 102; 1021; 65535; 1073741829;
     2 ^ 49 + 1; 2 ^ 50 - 5; 3 * 2 ^ 51; 2 ^ 53 - 1]
  = true.
Proof. vm_compute. reflexivity. Qed.

(** The sizes on the lengths that occur: ten examples, and the 102 rows
    that the down-sampling keeps of the 1021 loaded ones. *)
Example sizes_on_small_lengths :
  (train_size 10, val_size 10) = (6, 2) /\
  (train_size 102, val_size 102) = (61, 20) /\
  (train_size 1, val_size 1) = (0, 0) /\
  nearest_tenth 1021 = 102.
Proof. repeat split. Qed.

(** Why the statements on sizes carry a bound on the length: at
    [3 * 2^51] elements the double product [0.2 * n] falls on a tie and
    rounds up to the next integer. *)
Remark val_size_beyond_exactness :
  val_size (3 * 2 ^ 51) = 3 * 2 ^ 51 / 5 + 1.
Proof. reflexivity. Qed.

(** The seeding matters: the shuffle alone, started from two generator
    states, orders the same list differently. *)
Remark shuffle_alone_depends_on_state :
  run (@random_shuffle Reference.lcg_random nat [0; 1; 2; 3; 4]%nat)
      (@mkInterp Reference.lcg_random 0 1)
  <> run (@random_shuffle Reference.lcg_random nat [0; 1; 2; 3; 4]%nat)
         (@mkInterp Reference.lcg_random 0 2).
Proof. vm_compute. discriminate. Qed.

(** A data set of one example leaves [train] and [val] empty: the cells
    that evaluate on them receive empty subsets. *)
Remark single_example_subsets
  {R : PyRandom} {L : PyRandomLaws R} (seed : Z) (e : Example) (st : interp) :
  let subsets := snd (run (partitioner seed [e]) st) in
  train subsets = [] /\ val subsets = [] /\ test subsets = [e].
Proof.
  cbv zeta.
  pose proof (partitioner_perm seed [e] st) as Hperm.
  apply Permutation_length_1_inv in Hperm.
  rewrite partitioner_unfold in *. cbv zeta in *. cbn [fst snd] in *.
  rewrite Hperm. repeat split.
Qed.

(** Disjointness is one of objects: when two rows carry the same text, the
    two examples built from them have equal fields and can fall into
    different subsets. *)
Remark equal_fields_in_two_subsets :
  let subsets :=
    snd (run (@notebook Reference.lcg_random Reference.head_sample
                (Reference.toy_rows 103)) Reference.fresh) in
  exists a b,
    In a (train subsets) /\ In b (test subsets) /\
    fields a = fields b /\ oid a <> oid b.
Proof.
  cbv zeta.
  exists (example_of_row 2 (Reference.toy_row 2)),
         (example_of_row 0 (Reference.toy_row 0)).
  vm_compute. repeat split.
  - right. left. reflexivity.
  - right. left. reflexivity.
  - discriminate.
Qed.

(** With pairwise distinct fields the subsets are disjoint as lists of
    values too. *)
Lemma partition_disjoint_by_value
  {R : PyRandom} {L : PyRandomLaws R}
  (seed : Z) (dspy_dataset : list Example) (st : interp) :
  NoDup (map fields dspy_dataset) ->
  let subsets := snd (run (partitioner seed dspy_dataset) st) in
  NoDup (map fields (train subsets ++ val subsets ++ test subsets)).
Proof.
  intros Hnd. cbv zeta. rewrite partitioner_concat.
  apply (Permutation_NoDup
           (Permutation_map fields (partitioner_perm seed dspy_dataset st))).
  exact Hnd.
Qed.

(* ================================================================== *)
(** * The riddle text *)
(* ================================================================== *)

Section RiddleText.

Local Open Scope string_scope.

Lemma append_assoc (a b c : string) : (a ++ b) ++ c = a ++ (b ++ c).
Proof. induction a as [|x a IH]; cbn; [reflexivity | rewrite IH; reflexivity]. Qed.

Lemma append_empty_r (a : string) : a ++ "" = a.
Proof. induction a as [|x a IH]; cbn; [reflexivity | rewrite IH; reflexivity]. Qed.

Lemma length_append (a b : string) :
  String.length (a ++ b) = (String.length a + String.length b)%nat.
Proof. induction a as [|x a IH]; cbn; [reflexivity | rewrite IH; reflexivity]. Qed.

Lemma substring_prefix (a b : string) : substring 0 (String.length a) (a ++ b) = a.
Proof.
  induction a as [|x a IH]; cbn.
  - destruct b; reflexivity.
  - rewrite IH. reflexivity.
Qed.

(** Dropping the last two characters undoes appending a separator. *)
Lemma strip_separator (a : string) : Py.str_slice (a ++ ", ") None (Some (-2)%Z) = a.
Proof.
  unfold Py.str_slice, Py.slice_bounds, Py.clamp_index.
  rewrite length_append. cbn [String.length].
  change (-2 <? 0)%Z with true. cbv iota.
  replace (Z.max 0 (-2 + Z.of_nat (String.length a + 2)))%Z
    with (Z.of_nat (String.length a)) by lia.
  rewrite Z.sub_0_r, Nat2Z.id. cbn [Z.to_nat]. apply substring_prefix.
Qed.

(** The loop writes every choice followed by a separator: after a
    non-empty list of choices the text is the separated list, with one
    separator too many. *)
Lemma answer_choices_fold (items : list (string * string)) (acc : string) :
  fold_left
    (fun answer_choices lc => answer_choices ++ (fst lc ++ (". " ++ (snd lc ++ ", "))))
    items acc
  = match items with
    | [] => acc
    | _ :: _ => acc ++ (String.concat ", " (map choice_item items) ++ ", ")
    end.
Proof.
  revert acc. induction items as [|lc items IH]; intros acc; [reflexivity|].
  cbn [fold_left]. rewrite IH.
  destruct items as [|lc' items].
  - cbn [map String.concat]. unfold choice_item.
    rewrite !append_assoc. reflexivity.
  - change (String.concat ", " (map choice_item (lc :: lc' :: items)))
      with (choice_item lc ++ ", " ++ String.concat ", " (map choice_item (lc' :: items))).
    unfold choice_item at 2. rewrite !append_assoc. reflexivity.
Qed.

End RiddleText.

Lemma riddle_of_row_closed (row : Row) :
  riddle_of_row row =
    String.append (question row)
      (String.append ": "
         (String.concat ", "
            (map choice_item (Py.zip (label (choices row)) (text (choices row)))))).
Proof.
  unfold riddle_of_row, answer_choices_loop. rewrite answer_choices_fold.
  destruct (Py.zip (label (choices row)) (text (choices row))) as [|lc items].
  - reflexivity.
  - cbn [String.append]. rewrite strip_separator. reflexivity.
Qed.

(** X1. The riddle text of a row is the question, a colon, and the answer
    choices written as ["label. text"] and separated by [", "]: the slice
    [[:-2]] removes exactly the separator that the loop wrote after the
    last choice, and a row without choices gives the question and the colon
    alone. *)
Theorem riddle_text (row : Row) :
  riddle_of_row row =
    String.append (question row)
      (String.append ": "
         (String.concat ", "
            (map choice_item (Py.zip (label (choices row)) (text (choices row)))))).
Proof. apply riddle_of_row_closed. Qed.

(** X2. Labels and texts are paired by [zip]: what one list has beyond the
    length of the other is left out of the riddle, without an error. *)
Theorem riddle_ignores_surplus
  (q a : string) (labels texts more_labels more_texts : list string) :
  List.length labels = List.length texts ->
  riddle_of_row (mkRow q a (mkChoices (labels ++ more_labels) texts))
    = riddle_of_row (mkRow q a (mkChoices labels texts)) /\
  riddle_of_row (mkRow q a (mkChoices labels (texts ++ more_texts)))
    = riddle_of_row (mkRow q a (mkChoices labels texts)).
Proof.
  intros Hlen. rewrite !riddle_of_row_closed. cbn [question choices label text].
  unfold Py.zip. split; do 4 f_equal.
  - rewrite combine_firstn_r. rewrite <- Hlen.
    rewrite firstn_app, Nat.sub_diag, firstn_all. cbn. rewrite app_nil_r. reflexivity.
  - rewrite combine_firstn_l. rewrite Hlen.
    rewrite firstn_app, Nat.sub_diag, firstn_all. cbn. rewrite app_nil_r. reflexivity.
Qed.

Lemma riddle_ignores_surplus_witness :
  riddle_of_row
    (mkRow "q" "B" (mkChoices (["A"; "B"]%string ++ ["C"; "D"]%string)
                              ["sun"; "moon"]%string))
    = riddle_of_row (mkRow "q" "B" (mkChoices ["A"; "B"]%string ["sun"; "moon"]%string)) /\
  riddle_of_row
    (mkRow "q" "B" (mkChoices ["A"; "B"]%string
                              (["sun"; "moon"]%string ++ ["star"]%string)))
    = riddle_of_row (mkRow "q" "B" (mkChoices ["A"; "B"]%string ["sun"; "moon"]%string)).
Proof.
  apply (riddle_ignores_surplus "q" "B" ["A"; "B"]%string ["sun"; "moon"]%string
           ["C"; "D"]%string ["star"]%string).
  reflexivity.
Defined.

(* ================================================================== *)
(** * The loading cells and the ingestion loop *)
(* ================================================================== *)

Lemma combine3_map {A B C D : Type} (f : A -> B) (g : A -> C) (h : A -> D) (l : list A) :
  combine (combine (map f l) (map g l)) (map h l) = map (fun x => (f x, g x, h x)) l.
Proof. induction l as [|x l IH]; cbn; [reflexivity | rewrite IH; reflexivity]. Qed.

(** X10. Building the frame from the three columns read off the data set
    never fails, and row [i] of the frame carries the question, the answer
    key and the choices of record [i]. *)
Theorem load_frame_aligned (dataset : list HFRow) :
  load_frame dataset
    = Some (map (fun r => mkRow (hf_question r) (hf_answerKey r) (hf_choices r)) dataset).
Proof.
  unfold load_frame, DataFrame. rewrite !length_map, Nat.eqb_refl. cbn [andb].
  rewrite combine3_map, map_map. reflexivity.
Qed.

Lemma nth_error_examples_from (dataset : list Row) (o i : nat) :
  nth_error (examples_from o dataset) i
    = option_map (example_of_row (o + i)) (nth_error dataset i).
Proof.
  revert o i. induction dataset as [|row rest IH]; intros o i.
  - destruct i; reflexivity.
  - destruct i as [|i]; cbn [examples_from nth_error option_map].
    + rewrite Nat.add_0_r. reflexivity.
    + rewrite IH. replace (S o + i)%nat with (o + S i)%nat by lia. reflexivity.
Qed.

(** X3. The ingestion loop builds one example per row, in the order of the
    rows: the example at position [i] is a new object holding the riddle
    text and the answer key of row [i], with ["riddle"] as its input field,
    and there is none beyond the last row.  The loop takes one identity per
    row from the allocator and leaves the generator of [random] alone. *)
Theorem ingest_rowwise {R : PyRandom} (dataset : list Row) (st : interp) :
  (forall i,
     nth_error (run (ingest dataset) st) i
       = option_map
           (fun row => mkExample (next_oid st + i) (riddle_of_row row)
                                 (row_answer row) ["riddle"%string])
           (nth_error dataset i)) /\
  List.length (run (ingest dataset) st) = List.length dataset /\
  next_oid (snd (ingest dataset st)) = (next_oid st + List.length dataset)%nat /\
  py_random (snd (ingest dataset st)) = py_random st.
Proof.
  unfold run. rewrite ingest_closed. cbn [fst snd next_oid py_random].
  repeat split.
  - intros i. apply nth_error_examples_from.
  - apply examples_from_length.
Qed.

(* ================================================================== *)
(** * More on the split and the Partitioner *)
(* ================================================================== *)

(** X4. The shuffle and the split only rearrange: the three subsets put
    end to end are a permutation of the data set given to the Partitioner,
    so an example is in the data set exactly when it is in one of the
    subsets, as the same object with the same label. *)
Theorem partition_is_rearrangement
  {R : PyRandom} {L : PyRandomLaws R}
  (seed : Z) (dspy_dataset : list Example) (st : interp) :
  let subsets := snd (run (partitioner seed dspy_dataset) st) in
  Permutation dspy_dataset (train subsets ++ val subsets ++ test subsets) /\
  forall e, In e dspy_dataset <->
            In e (train subsets) \/ In e (val subsets) \/ In e (test subsets).
Proof.
  cbv zeta.
  assert (Hp : Permutation dspy_dataset
                 (train (snd (run (partitioner seed dspy_dataset) st))
                    ++ val (snd (run (partitioner seed dspy_dataset) st))
                    ++ test (snd (run (partitioner seed dspy_dataset) st)))).
  { rewrite partitioner_concat. apply partitioner_perm. }
  split; [exact Hp|].
  intros e. rewrite <- !in_app_iff. split.
  - apply Permutation_in. exact Hp.
  - apply Permutation_in. symmetry. exact Hp.
Qed.

Lemma partition_is_rearrangement_witness :
  let dspy_dataset := Reference.toy_examples 10 in
  let subsets := snd (run (partitioner SEED dspy_dataset) Reference.fresh) in
  Permutation dspy_dataset (train subsets ++ val subsets ++ test subsets) /\
  forall e, In e dspy_dataset <->
            In e (train subsets) \/ In e (val subsets) \/ In e (test subsets).
Proof.
  exact (partition_is_rearrangement (L := lcg_random_laws)
           SEED (Reference.toy_examples 10) Reference.fresh).
Defined.

(** X5. Which subsets are empty: [train] for fewer than two examples,
    [val] for fewer than five, [test] only for the empty data set.  (For
    lengths below [2^50], where the sizes are exact.) *)
Theorem split_empty_subsets (l : list Example) :
  let n := Z.of_nat (List.length l) in
  n < 2 ^ 50 ->
  (train (split l) = [] <-> n < 2) /\
  (val (split l) = [] <-> n < 5) /\
  (test (split l) = [] <-> n = 0).
Proof.
  intros n Hn.
  destruct (split_lengths l Hn) as (L1 & L2 & L3). fold n in L1, L2, L3.
  rewrite sixty_percent in *. rewrite twenty_percent in *.
  pose proof (fifths_fit n ltac:(lia)) as (B1 & B2 & B3).
  pose proof (Z.div_mod (3 * n) 5 ltac:(lia)).
  pose proof (Z.mod_pos_bound (3 * n) 5 ltac:(lia)).
  pose proof (Z.div_mod n 5 ltac:(lia)).
  pose proof (Z.mod_pos_bound n 5 ltac:(lia)).
  assert (En : 0 <= n) by (unfold n; lia). clearbody n.
  rewrite <- !length_zero_iff_nil.
  repeat split; intros; lia.
Qed.

Lemma split_empty_subsets_witness :
  let l := Reference.toy_examples 4 in
  let n := Z.of_nat (List.length l) in
  (train (split l) = [] <-> n < 2) /\
  (val (split l) = [] <-> n < 5) /\
  (test (split l) = [] <-> n = 0).
Proof.
  apply (split_empty_subsets (Reference.toy_examples 4)).
  vm_compute. reflexivity.
Defined.

(** X6. The proportions of the split: [train] has three times the size of
    [val] and at most two more, and [test], which takes the remainder, has
    the size of [val] and at most two more. *)
Theorem split_balance (l : list Example) :
  let n := Z.of_nat (List.length l) in
  n < 2 ^ 50 ->
  let t := Z.of_nat (List.length (train (split l))) in
  let v := Z.of_nat (List.length (val (split l))) in
  let e := Z.of_nat (List.length (test (split l))) in
  3 * v <= t <= 3 * v + 2 /\ v <= e <= v + 2 /\ t + v + e = n.
Proof.
  intros n Hn. cbv zeta.
  destruct (split_lengths l Hn) as (L1 & L2 & L3). fold n in L1, L2, L3.
  rewrite L1, L2, L3. rewrite !sixty_percent, !twenty_percent.
  pose proof (Z.div_mod (3 * n) 5 ltac:(lia)).
  pose proof (Z.mod_pos_bound (3 * n) 5 ltac:(lia)).
  pose proof (Z.div_mod n 5 ltac:(lia)).
  pose proof (Z.mod_pos_bound n 5 ltac:(lia)).
  clearbody n. lia.
Qed.

Lemma split_balance_witness :
  let l := Reference.toy_examples 14 in
  let t := Z.of_nat (List.length (train (split l))) in
  let v := Z.of_nat (List.length (val (split l))) in
  let e := Z.of_nat (List.length (test (split l))) in
  3 * v <= t <= 3 * v + 2 /\ v <= e <= v + 2 /\
  t + v + e = Z.of_nat (List.length l).
Proof.
  apply (split_balance (Reference.toy_examples 14)).
  vm_compute. reflexivity.
Defined.

Lemma split_map (f : Example -> Example) (l : list Example) :
  train (split (map f l)) = map f (train (split l)) /\
  val (split (map f l)) = map f (val (split l)) /\
  test (split (map f l)) = map f (test (split l)).
Proof.
  rewrite !split_train, !split_val, !split_test. cbv zeta.
  rewrite !length_map, <- !firstn_map, <- !skipn_map. repeat split; reflexivity.
Qed.

(** X7. Which position of the data set goes to which subset depends on
    the seed and on the number of examples only, not on what the examples
    hold: replacing every example by another one (relabelling, rewriting the
    riddle) and partitioning gives the replaced subsets. *)
Theorem partition_ignores_contents
  {R : PyRandom} (f : Example -> Example)
  (seed : Z) (dspy_dataset : list Example) (st : interp) :
  let result := run (partitioner seed dspy_dataset) st in
  let result' := run (partitioner seed (map f dspy_dataset)) st in
  fst result' = map f (fst result) /\
  train (snd result') = map f (train (snd result)) /\
  val (snd result') = map f (val (snd result)) /\
  test (snd result') = map f (test (snd result)).
Proof.
  cbv zeta. rewrite !partitioner_unfold. cbv zeta. cbn [fst snd].
  rewrite length_map, rearrange_map.
  split; [reflexivity | apply split_map].
Qed.

(* ================================================================== *)
(** * The notebook from the loaded frame to the subsets *)
(* ================================================================== *)

Section NotebookRun.

Context {R : PyRandom} {LR : PyRandomLaws R} {P : PandasSample} {LP : PandasSampleLaws P}.

(** The number of examples the notebook shuffles. *)
Lemma notebook_count (loaded : list Row) (st : interp) :
  Z.of_nat (List.length loaded) < 2 ^ 50 ->
  Z.of_nat (List.length (fst (run (notebook loaded) st)))
    = nearest_tenth (Z.of_nat (List.length loaded)).
Proof.
  intros HN. set (N := Z.of_nat (List.length loaded)) in *.
  assert (Hcount : Z.of_nat (List.length (downsample loaded)) = nearest_tenth N).
  { pose proof (nearest_tenth_bounds N ltac:(unfold N; lia)) as [Hb _].
    pose proof (sample_count N ltac:(unfold N in *; lia)) as Hc.
    unfold downsample. rewrite <- Hc. apply df_sample_size. fold N.
    rewrite Hc. exact Hb. }
  rewrite <- Hcount. f_equal.
  rewrite <- (length_map fields), notebook_fields.
  rewrite <- (length_map fields_of_row (downsample loaded)).
  symmetry. apply Permutation_length. apply rearrange_perm.
  rewrite length_map. apply mt_positions_perm.
Qed.

Lemma notebook_snd (loaded : list Row) (st : interp) :
  snd (run (notebook loaded) st) = split (fst (run (notebook loaded) st)).
Proof. rewrite notebook_unfold. reflexivity. Qed.

(** The shuffled examples are the ingested ones, rearranged. *)
Lemma notebook_perm (loaded : list Row) (st : interp) :
  Permutation (examples_from (next_oid st) (downsample loaded))
              (fst (run (notebook loaded) st)).
Proof.
  rewrite notebook_unfold. cbv zeta. cbn [fst].
  apply rearrange_perm. apply mt_positions_perm.
Qed.

End NotebookRun.

Lemma examples_from_rows (dataset : list Row) (o : nat) (e : Example) :
  In e (examples_from o dataset) ->
  exists row, In row dataset /\ fields e = fields_of_row row.
Proof.
  intros Hin. apply (in_map fields) in Hin.
  rewrite examples_from_fields in Hin. apply in_map_iff in Hin.
  destruct Hin as (row & E & Hrow). exists row. split; [exact Hrow | symmetry; exact E].
Qed.

(** X8. The whole run, from a loaded frame of [N] rows to the subsets:
    with [m] the integer nearest to [N / 10], the notebook yields
    [floor(0.6 m)] training, [floor(0.2 m)] validation and the remaining
    test examples; no object is in two subsets or twice in one; and every
    example of a subset carries the riddle text and the answer key of a row
    of the loaded frame. *)
Theorem notebook_subsets
  {R : PyRandom} {LR : PyRandomLaws R} {P : PandasSample} {LP : PandasSampleLaws P}
  (loaded : list Row) (st : interp) :
  let N := Z.of_nat (List.length loaded) in
  N < 2 ^ 50 ->
  let m := nearest_tenth N in
  let subsets := snd (run (notebook loaded) st) in
  Z.of_nat (List.length (train subsets)) = 6 * m / 10 /\
  Z.of_nat (List.length (val subsets)) = 2 * m / 10 /\
  Z.of_nat (List.length (test subsets)) = m - 6 * m / 10 - 2 * m / 10 /\
  NoDup (map oid (train subsets ++ val subsets ++ test subsets)) /\
  forall e,
    In e (train subsets ++ val subsets ++ test subsets) ->
    exists row, In row loaded /\ fields e = fields_of_row row.
Proof.
  intros N HN. cbv zeta.
  pose proof (notebook_count loaded st HN) as Hm. fold N in Hm.
  pose proof (notebook_perm loaded st) as Hperm.
  rewrite notebook_snd.
  set (shuffled := fst (run (notebook loaded) st)) in *.
  pose proof (nearest_tenth_bounds N ltac:(unfold N; lia)) as [Hb _].
  assert (Hlt : Z.of_nat (List.length shuffled) < 2 ^ 50) by lia.
  destruct (split_lengths shuffled Hlt) as (L1 & L2 & L3).
  rewrite Hm in L1, L2, L3.
  rewrite split_concat.
  repeat split; try assumption.
  - apply (Permutation_NoDup (Permutation_map oid Hperm)).
    rewrite examples_from_oid. apply seq_NoDup.
  - intros e He.
    apply (Permutation_in _ (Permutation_sym Hperm)) in He.
    destruct (examples_from_rows _ _ _ He) as (row & Hrow & E).
    exists row. split; [|exact E].
    destruct (df_sample_rows Binary64.lit_0_1 SEED loaded) as [rest Hrest].
    apply (Permutation_in _ Hrest). apply in_or_app. left. exact Hrow.
Qed.

Lemma notebook_subsets_witness :
  let loaded := Reference.toy_rows 103 in
  let N := Z.of_nat (List.length loaded) in
  let m := nearest_tenth N in
  let subsets :=
    snd (run (@notebook Reference.lcg_random Reference.head_sample loaded)
             Reference.fresh) in
  Z.of_nat (List.length (train subsets)) = 6 * m / 10 /\
  Z.of_nat (List.length (val subsets)) = 2 * m / 10 /\
  Z.of_nat (List.length (test subsets)) = m - 6 * m / 10 - 2 * m / 10 /\
  NoDup (map oid (train subsets ++ val subsets ++ test subsets)) /\
  forall e,
    In e (train subsets ++ val subsets ++ test subsets) ->
    exists row, In row loaded /\ fields e = fields_of_row row.
Proof.
  apply (@notebook_subsets Reference.lcg_random lcg_random_laws
           Reference.head_sample head_sample_laws
           (Reference.toy_rows 103) Reference.fresh).
  vm_compute. reflexivity.
Defined.

Lemma nearest_tenth_zero (n : Z) : 0 <= n -> (nearest_tenth n = 0 <-> n <= 5).
Proof.
  intros Hn. unfold nearest_tenth. cbv zeta.
  pose proof (Z.div_mod n 10 ltac:(lia)).
  pose proof (Z.mod_pos_bound n 10 ltac:(lia)).
  destruct (Z.ltb_spec (n mod 10) 5); [lia|].
  destruct (Z.ltb_spec 5 (n mod 10)); [lia|].
  destruct (Z.even (n / 10)) eqn:Ev; [lia|].
  split; [lia|]. intros Hle. exfalso.
  assert (n / 10 = 0) by lia. rewrite H3 in Ev. discriminate.
Qed.

(** X9. A loaded frame of at most five rows leaves nothing after the
    down-sampling ([round] sends the tie of five rows to zero): the data
    set and the three subsets are empty.  From six rows on there is at
    least one test example. *)
Theorem notebook_small_frames
  {R : PyRandom} {LR : PyRandomLaws R} {P : PandasSample} {LP : PandasSampleLaws P}
  (loaded : list Row) (st : interp) :
  let N := Z.of_nat (List.length loaded) in
  N < 2 ^ 50 ->
  let result := run (notebook loaded) st in
  (N <= 5 ->
   fst result = [] /\ train (snd result) = [] /\
   val (snd result) = [] /\ test (snd result) = []) /\
  (6 <= N -> test (snd result) <> []).
Proof.
  intros N HN. cbv zeta.
  pose proof (notebook_count loaded st HN) as Hm. fold N in Hm.
  rewrite notebook_snd.
  set (shuffled := fst (run (notebook loaded) st)) in *.
  pose proof (nearest_tenth_zero N ltac:(unfold N; lia)) as Hz.
  split.
  - intros Hle. assert (E : shuffled = []).
    { apply length_zero_iff_nil. lia. }
    rewrite E. repeat split.
  - intros Hge.
    pose proof (nearest_tenth_bounds N ltac:(unfold N; lia)) as [Hb _].
    assert (Hlt : Z.of_nat (List.length shuffled) < 2 ^ 50) by lia.
    destruct (split_lengths shuffled Hlt) as (_ & _ & L3).
    rewrite Hm in L3. rewrite sixty_percent, twenty_percent in L3.
    intros E. rewrite E in L3. cbn [List.length] in L3.
    set (m := nearest_tenth N) in *.
    assert (Hm1 : 1 <= m) by lia.
    pose proof (Z.div_mod (3 * m) 5 ltac:(lia)).
    pose proof (Z.mod_pos_bound (3 * m) 5 ltac:(lia)).
    pose proof (Z.div_mod m 5 ltac:(lia)).
    pose proof (Z.mod_pos_bound m 5 ltac:(lia)).
    clearbody m. lia.
Qed.

Lemma notebook_small_frames_witness :
  let loaded := Reference.toy_rows 5 in
  let N := Z.of_nat (List.length loaded) in
  let result :=
    run (@notebook Reference.lcg_random Reference.head_sample loaded)
        Reference.fresh in
  (N <= 5 ->
   fst result = [] /\ train (snd result) = [] /\
   val (snd result) = [] /\ test (snd result) = []) /\
  (6 <= N -> test (snd result) <> []).
Proof.
  apply (@notebook_small_frames Reference.lcg_random lcg_random_laws
           Reference.head_sample head_sample_laws
           (Reference.toy_rows 5) Reference.fresh).
  vm_compute. reflexivity.
Defined.
